(** * Huawei Solar Monitor: a shallow embedding of [src/app.js]

    The application polls a Huawei inverter over Modbus TCP, scales three
    holding registers into physical units, derives two money figures and one
    energy figure from the daily energy, and serves the result over HTTP.

    JavaScript numbers are IEEE-754 binary64 values; they are modelled by the
    Standard Library's [spec_float] with precision 53 and maximal exponent
    1024, whose operations round to nearest, ties to even, as the language
    prescribes.  Asynchronous functions are modelled in a state-and-exception
    monad over a [World] holding the Modbus client, the console, the clock
    and the module-level tariff object. *)

From Stdlib Require Import ZArith List String Ascii Bool Lia QArith.
From Stdlib Require Import SpecFloat DecimalString.
Import ListNotations.

Local Open Scope Z_scope.

(** ** JavaScript numbers *)

Module Num.

Definition number := spec_float.

Definition prec : Z := 53.
Definition emax : Z := 1024.

(** The Number value of an integer (rounded when it has more than 53
    significant bits). *)
Definition of_Z (z : Z) : number := binary_normalize prec emax z 0 false.

(** [x * y] and [x / y] on Numbers. *)
Definition mul (x y : number) : number := SFmul prec emax x y.
Definition div (x y : number) : number := SFdiv prec emax x y.

(** The Number value of the decimal literal [n / 10^k], for instance
    [literal 12 2] for [0.12]: the mathematical value rounded to nearest.
    Both [n] and [10^k] are exactly representable for the literals used
    here, so the correctly rounded quotient is the literal's value. *)
Definition literal (n : Z) (k : nat) : number :=
  div (of_Z n) (of_Z (10 ^ Z.of_nat k)).

Definition NaN : number := S754_nan.

Definition is_finite (x : number) : bool :=
  match x with
  | S754_zero _ | S754_finite _ _ _ => true
  | _ => false
  end.

(** A finite number that is not negative ([-0] counts as zero). *)
Definition is_nonneg_finite (x : number) : bool :=
  match x with
  | S754_zero _ | S754_finite false _ _ => true
  | _ => false
  end.

(** The integer a Number denotes, when it denotes one exactly. *)
Definition exact_Z (x : number) : option Z :=
  match x with
  | S754_zero _ => Some 0
  | S754_finite s m e =>
      let v :=
        if 0 <=? e then Some (Zpos m * 2 ^ e)
        else if (Zpos m) mod 2 ^ (- e) =? 0 then Some (Zpos m / 2 ^ (- e))
        else None in
      match v with
      | Some z => Some (if s then - z else z)
      | None => None
      end
  | _ => None
  end.

(** The number of binary digits of a positive integer. *)
Definition bits (z : Z) : Z := Z.log2 z + 1.

(** The rational a finite Number denotes. *)
Definition to_Q (x : number) : option Q :=
  match x with
  | S754_zero _ => Some 0%Q
  | S754_finite s m e =>
      let q := if 0 <=? e then inject_Z (Zpos m * 2 ^ e)
               else Qmake (Zpos m) (Z.to_pos (2 ^ (- e))) in
      Some (if s then Qopp q else q)
  | _ => None
  end.

End Num.

Abbreviation number := Num.number.

(** ** Values and strings *)

(** The values an array element read can produce here: a Number, or
    [undefined] when the index is out of range. *)
Inductive jsval :=
| JUndefined
| JNumber (x : number).

(** [ToNumber]: [undefined] becomes [NaN]. *)
Definition ToNumber (v : jsval) : number :=
  match v with
  | JUndefined => Num.NaN
  | JNumber x => x
  end.

(** [data[i]] on an array of 16-bit register words. *)
Definition index (data : list Z) (i : nat) : jsval :=
  match nth_error data i with
  | Some w => JNumber (Num.of_Z w)
  | None => JUndefined
  end.

(** Strings produced by formatting a Number.  Digit strings are built here.
    For a finite value of magnitude at least 10^21, [toFixed] hands over to
    [Number::toString], whose last digit the language leaves to the
    implementation: that result is kept symbolic. *)
Inductive jsstring :=
| Str (s : string)
| NumberToString (x : number).

Module Fixed.

Local Open Scope string_scope.

(** The decimal digits of a natural number, ["0"] for zero. *)
Definition digits (n : Z) : string :=
  NilEmpty.string_of_uint (N.to_uint (Z.to_N n)).

Fixpoint zeros (k : nat) : string :=
  match k with
  | O => ""
  | S k' => "0" ++ zeros k'
  end.

(** Whether the finite positive value [m * 2^e] is at least [10^21]. *)
Definition ge_1e21 (m : positive) (e : Z) : bool :=
  if (0 <=? e)%Z then (10 ^ 21 <=? Zpos m * 2 ^ e)%Z
  else (10 ^ 21 * 2 ^ (- e) <=? Zpos m)%Z.

(** The integer [n] for which [n / 10^f - m * 2^e] is as close to zero as
    possible, the larger one when there are two. *)
Definition nearest (m : positive) (e : Z) (f : nat) : Z :=
  let num := (Zpos m * 10 ^ Z.of_nat f)%Z in
  if (0 <=? e)%Z then (num * 2 ^ e)%Z
  else ((2 * num + 2 ^ (- e)) / 2 ^ (- e + 1))%Z.

(** [n] is such an integer: [x * 10^f - 1/2 < n <= x * 10^f + 1/2] for
    [x = m * 2^e], with both sides multiplied by [2 * 2^k], where [2^k]
    is the denominator of [x]. *)
Definition is_nearest (m : positive) (e : Z) (f : nat) (n : Z) : Prop :=
  let k := Z.max 0 (- e) in
  let scaled := (Zpos m * 2 ^ Z.max 0 e * 10 ^ Z.of_nat f)%Z in
  (2 * scaled - 2 ^ k < 2 * n * 2 ^ k <= 2 * scaled + 2 ^ k)%Z.

(** Steps 11.b to 11.c of [Number.prototype.toFixed]: the digits of [n]
    with a decimal point before the last [f] of them, padded with zeros
    on the left up to [f + 1] digits. *)
Definition point (n : Z) (f : nat) : string :=
  let m := digits n in
  match f with
  | O => m
  | _ =>
      let k := String.length m in
      let m := if (k <=? f)%nat then zeros (f + 1 - k) ++ m else m in
      let k := String.length m in
      substring 0 (k - f) m ++ "." ++ substring (k - f) f m
  end.

(** [x.toFixed(f)] for [0 <= f <= 100]. *)
Definition toFixed (x : number) (f : nat) : jsstring :=
  match x with
  | S754_nan => Str "NaN"
  | S754_infinity false => Str "Infinity"
  | S754_infinity true => Str "-Infinity"
  | S754_zero _ => Str (point 0 f)
  | S754_finite s m e =>
      if ge_1e21 m e then NumberToString x
      else Str ((if s then "-" else "") ++ point (nearest m e f) f)
  end.

End Fixed.

(** ** Promises, the Modbus client and the world *)

(** What an exception or a rejected promise carries. *)
Definition error := string.

(** How an awaited call or a function body ends. *)
Inductive outcome (A : Type) :=
| Resolved (a : A)
| Rejected (err : error).

Arguments Resolved {A} a.
Arguments Rejected {A} err.

(** The [modbus-serial] client object.  The library is an external
    dependency: its three methods used by the application are taken as
    transitions on an arbitrary client state.  Register words are the
    16-bit values of the response, in the order of the response. *)
Class ModbusRTU (C : Type) := {
  connectTCP : string -> Z -> C -> outcome unit * C;
  setID : Z -> C -> outcome unit * C;
  readHoldingRegisters : Z -> Z -> C -> outcome (list Z) * C
}.

(** The calls issued on the client, recorded in order. *)
Inductive request :=
| ReqConnectTCP (ip : string) (port : Z)
| ReqSetID (id : Z)
| ReqReadHoldingRegisters (address count : Z).

Inductive console_line :=
| ConsoleLog (msg : string)
| ConsoleError (msg : string) (err : error).

(** [ENERGY_COST], in euro per kWh. *)
Record tariff := {
  purchase : number;
  sale : number
}.

(** The object [fetchSolarData] returns. *)
Record Reading := {
  activePower : number;
  dailyEnergy : number;
  voltage : number;
  timestamp : Z
}.

(** The object [calculateCosts] returns. *)
Record CostEstimate := {
  dailySavings : jsstring;
  potentialRevenue : jsstring;
  energyProduced : jsstring
}.

(** What the route handler sends: [res.json] or [res.status(..).json]. *)
Inductive body :=
| SolarBody (data : Reading) (costs : CostEstimate)
| ErrorBody (msg : string).

Record response := {
  status : Z;
  payload : body
}.

Section Application.

Context {C : Type} `{ModbusRTU C}.

Record World := {
  modbusClient : C;
  requests : list request;
  console : list console_line;
  clock : Z;
  INVERTER_IP : string;
  ENERGY_COST : tariff
}.

(** *** The monad of asynchronous functions *)

Definition M (A : Type) : Type := World -> outcome A * World.

Definition ret {A} (a : A) : M A := fun w => (Resolved a, w).

Definition bind {A B} (m : M A) (k : A -> M B) : M B :=
  fun w =>
    match m w with
    | (Resolved a, w') => k a w'
    | (Rejected err, w') => (Rejected err, w')
    end.

(** [try { body } catch (err) { handler }]. *)
Definition try_catch {A} (m : M A) (handler : error -> M A) : M A :=
  fun w =>
    match m w with
    | (Resolved a, w') => (Resolved a, w')
    | (Rejected err, w') => handler err w'
    end.

(** The world after the client has moved to [c], the calls [reqs] have
    been issued on it and [lines] have been printed. *)
Definition with_io (w : World) (c : C) (reqs : list request)
    (lines : list console_line) : World :=
  {| modbusClient := c;
     requests := requests w ++ reqs;
     console := console w ++ lines;
     clock := clock w;
     INVERTER_IP := INVERTER_IP w;
     ENERGY_COST := ENERGY_COST w |}.

(** A call on [modbusClient]: the request is recorded and the client
    makes its transition. *)
Definition call {A} (r : request) (op : C -> outcome A * C) : M A :=
  fun w =>
    let (o, c) := op (modbusClient w) in
    (o, with_io w c [r] []).

(** [console.log] and [console.error]. *)
Definition print (l : console_line) : M unit :=
  fun w => (Resolved tt, with_io w (modbusClient w) [] [l]).

(** [new Date()]. *)
Definition new_Date : M Z := fun w => (Resolved (clock w), w).

Definition get_INVERTER_IP : M string := fun w => (Resolved (INVERTER_IP w), w).
Definition get_ENERGY_COST : M tariff := fun w => (Resolved (ENERGY_COST w), w).

End Application.

Arguments World C : clear implicits.
Arguments M C A : clear implicits.

Declare Scope js_scope.
Delimit Scope js_scope with js.

Notation "x <- m ;; k" := (bind m (fun x => k))
  (at level 100, m at next level, right associativity) : js_scope.
Notation "m ;;; k" := (bind m (fun _ => k))
  (at level 100, right associativity) : js_scope.
Notation "'try' m 'catch' h" := (try_catch m h)
  (at level 100, m at next level, h at next level) : js_scope.

(** ** The application *)

Section Program.

Context {C : Type} `{ModbusRTU C}.

Local Open Scope js_scope.
Local Open Scope string_scope.

Definition port : Z := 3000.
Definition MODBUS_PORT : Z := 502.
Definition UNIT_ID : Z := 1.

(** [process.env.INVERTER_IP || '192.168.1.100']: an unset or empty
    variable gives the default. *)
Definition INVERTER_IP_of_env (v : option string) : string :=
  match v with
  | Some s => if (s =? "")%string then "192.168.1.100" else s
  | None => "192.168.1.100"
  end.

(** The module-level state when the script has been loaded: the client
    [c] just constructed, nothing requested or printed yet, and
    [ENERGY_COST] as the source writes it. *)
Definition boot (env_INVERTER_IP : option string) (c : C) (now : Z) : World C :=
  {| modbusClient := c;
     requests := [];
     console := [];
     clock := now;
     INVERTER_IP := INVERTER_IP_of_env env_INVERTER_IP;
     ENERGY_COST := {| purchase := Num.literal 25 2;
                       sale := Num.literal 12 2 |} |}.

Definition connectToInverter : M C unit :=
  try (ip <- get_INVERTER_IP ;;
       call (ReqConnectTCP ip MODBUS_PORT) (connectTCP ip MODBUS_PORT) ;;;
       call (ReqSetID UNIT_ID) (setID UNIT_ID) ;;;
       print (ConsoleLog "Connected to Huawei inverter"))
  catch (fun err => print (ConsoleError "Connection error:" err)).

(** [await modbusClient.readHoldingRegisters(address, count)], giving the
    [data] array of the result. *)
Definition read (address count : Z) : M C (list Z) :=
  call (ReqReadHoldingRegisters address count)
       (readHoldingRegisters address count).

(** The result is [null] ([None]) when anything in the body threw. *)
Definition fetchSolarData : M C (option Reading) :=
  try (powerData <- read 32080 2 ;;
       energyData <- read 32106 2 ;;
       voltageData <- read 32066 1 ;;
       now <- new_Date ;;
       ret (Some
         {| activePower := Num.mul (ToNumber (index powerData 0)) (Num.of_Z 100);
            dailyEnergy := Num.mul (ToNumber (index energyData 0)) (Num.of_Z 100);
            voltage := Num.mul (ToNumber (index voltageData 0)) (Num.of_Z 10);
            timestamp := now |}))
  catch (fun err =>
       print (ConsoleError "Error fetching data:" err) ;;;
       ret None).

Definition calculateCosts (data : Reading) : M C CostEstimate :=
  let dailyEnergyKWh := Num.div (dailyEnergy data) (Num.of_Z 1000) in
  cost <- get_ENERGY_COST ;;
  let savings := Num.mul dailyEnergyKWh (purchase cost) in
  cost <- get_ENERGY_COST ;;
  let revenue := Num.mul dailyEnergyKWh (sale cost) in
  ret {| dailySavings := Fixed.toFixed savings 2;
         potentialRevenue := Fixed.toFixed revenue 2;
         energyProduced := Fixed.toFixed dailyEnergyKWh 2 |}.

(** The handler of [GET /api/solar-data].  [if (data)] takes the first
    branch for every object and the second for [null]. *)
Definition api_solar_data : M C response :=
  data <- fetchSolarData ;;
  match data with
  | Some data =>
      costs <- calculateCosts data ;;
      ret {| status := 200; payload := SolarBody data costs |}
  | None =>
      ret {| status := 500; payload := ErrorBody "Failed to fetch data" |}
  end.

(** The callback of [app.listen]. *)
Definition on_listen : M C unit :=
  print (ConsoleLog ("Huawei Solar Monitor running at http://localhost:"
                     ++ Fixed.digits port)) ;;;
  connectToInverter.

End Program.

(** ** A scripted client

    A stand-in for the device: the port is open or not; a connect takes the
    next entry of [connects], a read on an open port the next entry of
    [reads]; a read on a closed port is rejected and an exhausted script
    times out. *)
Module Scripted.

Local Open Scope string_scope.

Record client := {
  is_open : bool;
  connects : list (outcome unit);
  reads : list (outcome (list Z))
}.

Definition connect (c : client) : outcome unit * client :=
  match connects c with
  | Resolved tt :: rest =>
      (Resolved tt, {| is_open := true; connects := rest; reads := reads c |})
  | Rejected err :: rest =>
      (Rejected err, {| is_open := false; connects := rest; reads := reads c |})
  | [] => (Rejected "Timed out", c)
  end.

Definition read_registers (c : client) : outcome (list Z) * client :=
  if is_open c then
    match reads c with
    | o :: rest =>
        (o, {| is_open := true; connects := connects c; reads := rest |})
    | [] => (Rejected "Timed out", c)
    end
  else (Rejected "Port Not Open", c).

#[export] Instance modbus : ModbusRTU client := {
  connectTCP _ _ := connect;
  setID _ c := (Resolved tt, c);
  readHoldingRegisters _ _ := read_registers
}.

(** An open session that answers the next reads with [answers]. *)
Definition connected (answers : list (outcome (list Z))) : client :=
  {| is_open := true; connects := []; reads := answers |}.

(** A closed session whose next connects end as [attempts] say. *)
Definition disconnected (attempts : list (outcome unit)) : client :=
  {| is_open := false; connects := attempts; reads := [] |}.

End Scripted.

(** ** Sample worlds *)

Module Samples.

Import Scripted.

Local Open Scope string_scope.

(** A connected inverter answering one sampling: power words 50 and 0,
    energy words 120 and 0, a voltage word of 2305. *)
Definition healthy : World client :=
  boot None
       (connected [Resolved [50; 0]; Resolved [120; 0]; Resolved [2305]])
       1700000000000.

(** The link is lost after the first read of the sampling. *)
Definition link_lost_midway : World client :=
  boot None (connected [Resolved [50; 0]; Rejected "Timed out"]) 1700000000000.

(** The session was never opened, and the inverter is unreachable. *)
Definition never_connected : World client :=
  boot None (disconnected [Rejected "EHOSTUNREACH"]) 1700000000000.

(** The two-word groups carry their value in the second word. *)
Definition low_words : World client :=
  boot None
       (connected [Resolved [0; 50]; Resolved [0; 120]; Resolved [2305]])
       1700000000000.

(** A session with another address, other pending answers and a console
    that has lines already, under the tariff of the source. *)
Definition busy : World client :=
  with_io (boot (Some "10.0.0.7") (connected [Resolved [7; 7]]) 1700000005000)
          (connected [])
          [ReqReadHoldingRegisters 32080 2]
          [ConsoleLog "Connected to Huawei inverter"].

(** The Reading of a day that produced 100 Wh, a raw energy word of 1. *)
Definition first_light : Reading :=
  {| activePower := Num.of_Z 300;
     dailyEnergy := Num.of_Z 100;
     voltage := Num.of_Z 2305;
     timestamp := 1700000000000 |}.

End Samples.

(** ** Vocabulary of the properties *)

(** The three register reads of one sampling, in the order of the source. *)
Definition register_reads : list request :=
  [ReqReadHoldingRegisters 32080 2;
   ReqReadHoldingRegisters 32106 2;
   ReqReadHoldingRegisters 32066 1].

(** The specification's combination of the words of a register group: the
    most-significant-first concatenation of its 16-bit words. *)
Definition concat_msw_first (words : list Z) : Z :=
  fold_left (fun acc word => acc * 65536 + word) words 0.

Definition is_word (w : Z) : Prop := 0 <= w < 65536.

(** [s] is [x] rounded to two decimals: it is what [toFixed(2)] makes of
    [x], which for a finite [x] of magnitude below 10^21 is the sign and
    the digits of the integer nearest to [100 * |x|]. *)
Definition shows_two_decimals (x : number) (s : jsstring) : Prop :=
  s = Fixed.toFixed x 2 /\
  match x with
  | S754_finite sg m e =>
      Fixed.ge_1e21 m e = false ->
      exists n, Fixed.is_nearest m e 2 n /\
                s = Str ((if sg then "-" else "") ++ Fixed.point n 2)
  | _ => True
  end.

Section Sampling.

Context {C : Type} `{ModbusRTU C}.

(** From the client state [c], the three reads resolve in turn with
    [power], [energy] and [volts] and leave the client in [c']. *)
Definition reads_succeed (c : C) (power energy volts : list Z) (c' : C) : Prop :=
  exists c1 c2,
    readHoldingRegisters 32080 2 c = (Resolved power, c1) /\
    readHoldingRegisters 32106 2 c1 = (Resolved energy, c2) /\
    readHoldingRegisters 32066 1 c2 = (Resolved volts, c').

(** From the client state [c], the read number [k] (counted from 0) is
    rejected with [err], the reads before it having resolved; the client
    is left in [c']. *)
Inductive read_fails (c : C) : nat -> error -> C -> Prop :=
| power_read_fails err c' :
    readHoldingRegisters 32080 2 c = (Rejected err, c') ->
    read_fails c 0 err c'
| energy_read_fails power c1 err c' :
    readHoldingRegisters 32080 2 c = (Resolved power, c1) ->
    readHoldingRegisters 32106 2 c1 = (Rejected err, c') ->
    read_fails c 1 err c'
| voltage_read_fails power c1 energy c2 err c' :
    readHoldingRegisters 32080 2 c = (Resolved power, c1) ->
    readHoldingRegisters 32106 2 c1 = (Resolved energy, c2) ->
    readHoldingRegisters 32066 1 c2 = (Rejected err, c') ->
    read_fails c 2 err c'.

End Sampling.

(** ** The server over several requests *)




Section Serving.

Context {C : Type} `{ModbusRTU C}.

(** [n] requests to [GET /api/solar-data] handled one after the other. *)
Fixpoint serve (n : nat) : M C (list response) :=
  match n with
  | O => ret []
  | S n' =>
      bind api_solar_data (fun r =>
      bind (serve n') (fun rs =>
      ret (r :: rs)))
  end.

(** The life of the process: the callback of [app.listen], then [n]
    requests. *)
Definition run (n : nat) : M C (list response) :=
  bind on_listen (fun _ => serve n).

End Serving.

(** ** The script of the page

    The page served at [/] polls [/api/solar-data] and writes four
    elements.  [fetch] resolves with the response whatever its status, and
    [response.json()] gives the body as JSON carried it. *)
Module Page.

Local Open Scope string_scope.

(** [Number::toString] where the language fixes its digits: the non-finite
    values, zero, and the integers below 2^53 in magnitude, whose shortest
    digits that read back as the same Number are their decimal digits. *)
Definition Number_toString (x : number) : jsstring :=
  match x with
  | S754_nan => Str "NaN"
  | S754_infinity false => Str "Infinity"
  | S754_infinity true => Str "-Infinity"
  | S754_zero _ => Str "0"
  | S754_finite s m e =>
      match Num.exact_Z (S754_finite false m e) with
      | Some z =>
          if (z <? 2 ^ 53)%Z then Str ((if s then "-" else "") ++ Fixed.digits z)
          else NumberToString x
      | None => NumberToString x
      end
  end.

(** A value of the parsed body. *)
Inductive value :=
| VUndefined
| VNull
| VNumber (x : number)
| VString (s : jsstring).

(** A Number through [JSON.stringify] and [JSON.parse]: the non-finite
    values become [null] and [-0] becomes [0]. *)
Definition JSON_number (x : number) : value :=
  match x with
  | S754_nan | S754_infinity _ => VNull
  | S754_zero _ => VNumber (S754_zero false)
  | S754_finite _ _ _ => VNumber x
  end.

(** [ToString] of an operand of a string concatenation. *)
Definition ToString (v : value) : jsstring :=
  match v with
  | VUndefined => Str "undefined"
  | VNull => Str "null"
  | VNumber x => Number_toString x
  | VString s => s
  end.

(** The text of an element: a string, or a string around the digits of a
    Number that are kept symbolic. *)
Inductive text :=
| Plain (s : string)
| Around (before : string) (x : number) (after : string).

(** [before + s + after]. *)
Definition glue (before : string) (s : jsstring) (after : string) : text :=
  match s with
  | Str s => Plain (before ++ s ++ after)
  | NumberToString x => Around before x after
  end.

(** The [textContent] of the elements [power], [energy], [savings] and
    [voltage]. *)
Record document := {
  el_power : text;
  el_energy : text;
  el_savings : text;
  el_voltage : text
}.

(** The page as served. *)
Definition loading : document :=
  {| el_power := Plain "Loading...";
     el_energy := Plain "Loading...";
     el_savings := Plain "Loading...";
     el_voltage := Plain "Loading..." |}.

(** [data.activePower], [data.voltage] and [data.costs] on the parsed
    body: the error body has none of them. *)
Definition data_activePower (data : body) : value :=
  match data with
  | SolarBody d _ => JSON_number (activePower d)
  | ErrorBody _ => VUndefined
  end.

Definition data_voltage (data : body) : value :=
  match data with
  | SolarBody d _ => JSON_number (voltage d)
  | ErrorBody _ => VUndefined
  end.

Definition data_costs (data : body) : option CostEstimate :=
  match data with
  | SolarBody _ costs => Some costs
  | ErrorBody _ => None
  end.

(** [updateData]: the elements after the call, and what it printed on the
    console of the browser.  A property read on [undefined] throws a
    [TypeError], which the [catch] prints. *)
Definition updateData (fetched : outcome response) (doc : document)
    : document * list console_line :=
  match fetched with
  | Rejected err => (doc, [ConsoleError "Error:" err])
  | Resolved response =>
      let data := payload response in
      let doc :=
        {| el_power := glue "" (ToString (data_activePower data)) " W";
           el_energy := el_energy doc;
           el_savings := el_savings doc;
           el_voltage := el_voltage doc |} in
      match data_costs data with
      | None => (doc, [ConsoleError "Error:" "TypeError"])
      | Some costs =>
          ({| el_power := el_power doc;
              el_energy := glue "" (energyProduced costs) " kWh";
              el_savings := glue "€ " (dailySavings costs) "";
              el_voltage := glue "" (ToString (data_voltage data)) " V" |},
           [])
      end
  end.


End Page.

Section Polling.

Context {C : Type} `{ModbusRTU C}.

(** One poll of the page against the server: the request is handled and
    the script works on the answer.  (An answer of a handler that threw
    would not be JSON, and [response.json()] would reject.) *)
Definition poll (w : World C) (doc : Page.document)
    : World C * (Page.document * list console_line) :=
  let (answer, w') := api_solar_data w in
  (w', Page.updateData answer doc).

End Polling.


(** The first line the server prints. *)
Definition banner : console_line :=
  ConsoleLog "Huawei Solar Monitor running at http://localhost:3000".

(** ** More sample worlds *)

Module MoreSamples.

Import Scripted.

Local Open Scope string_scope.

(** The inverter answers the energy read with no word at all. *)
Definition short_answer : World client :=
  boot None (connected [Resolved [50; 0]; Resolved []; Resolved [2305]])
       1700000000000.

(** The inverter answers the power read with no word at all. *)
Definition no_power : World client :=
  boot None (connected [Resolved []; Resolved [120; 0]; Resolved [2305]])
       1700000000000.

(** The address comes from the environment and the inverter accepts the
    connection; it then answers one sampling and loses the link. *)
Definition configured : World client :=
  boot (Some "10.0.0.7")
       {| is_open := false;
          connects := [Resolved tt];
          reads := [Resolved [50; 0]; Resolved [120; 0]; Resolved [2305];
                    Rejected "Timed out"] |}
       1700000000000.

End MoreSamples.

(** ** Checks of the number formatting *)

Example toFixed_12 :
  Fixed.toFixed (Num.of_Z 12) 2 = Str "12.00".
Proof. reflexivity. Qed.

Example toFixed_0_025 :
  Fixed.toFixed (Num.literal 25 3) 2 = Str "0.03".
Proof. reflexivity. Qed.

Example toFixed_1_005 :
  Fixed.toFixed (Num.literal 1005 3) 2 = Str "1.00".
Proof. reflexivity. Qed.

Example toFixed_neg_zero :
  Fixed.toFixed (S754_zero true) 2 = Str "0.00".
Proof. reflexivity. Qed.


(** ** Exact arithmetic on small integers *)

Module NumFacts.

Lemma digits2_pos_size (p : positive) : digits2_pos p = Pos.size p.
Proof. induction p; simpl; congruence. Qed.

Lemma Zdigits2_bits (z : Z) : 0 < z -> Zdigits2 z = Num.bits z.
Proof.
  destruct z as [|p|p]; try lia. intros _.
  unfold Num.bits. simpl Zdigits2. rewrite digits2_pos_size.
  destruct p; simpl; lia.
Qed.

Lemma bits_shift (q k : Z) : 0 < q -> 0 <= k -> Num.bits (q * 2 ^ k) = Num.bits q + k.
Proof. intros. unfold Num.bits. rewrite Z.log2_mul_pow2 by lia. lia. Qed.

Lemma bits_bound (z : Z) : 0 < z -> 2 ^ (Num.bits z - 1) <= z < 2 ^ Num.bits z.
Proof.
  intros Hz. unfold Num.bits. pose proof (Z.log2_spec z Hz) as Hs.
  replace (Z.log2 z + 1 - 1) with (Z.log2 z) by lia.
  replace (Z.log2 z + 1) with (Z.succ (Z.log2 z)) by lia. exact Hs.
Qed.

Lemma bits_le (z n : Z) : 0 < z -> z < 2 ^ n -> Num.bits z <= n.
Proof.
  intros Hz Hn. unfold Num.bits.
  assert (Z.log2 z < n) by (apply Z.log2_lt_pow2; lia). lia.
Qed.

Lemma bits_pos (z : Z) : 0 < z -> 1 <= Num.bits z.
Proof. intros. unfold Num.bits. pose proof (Z.log2_nonneg z). lia. Qed.

(** Shifting out zeros loses nothing. *)
Lemma shr_1_even (q : Z) :
  0 <= q ->
  shr_1 {| shr_m := q * 2; shr_r := false; shr_s := false |}
  = {| shr_m := q; shr_r := false; shr_s := false |}.
Proof.
  intros Hq. rewrite Z.mul_comm. destruct q as [|p|p]; try lia; reflexivity.
Qed.

Lemma pow2_xO (n : positive) : 2 ^ Zpos n~0 = 2 ^ Zpos n * 2 ^ Zpos n.
Proof.
  rewrite <- Z.pow_add_r by lia. f_equal. lia.
Qed.

Lemma pow2_xI (n : positive) : 2 ^ Zpos n~1 = 2 ^ Zpos n * 2 ^ Zpos n * 2.
Proof.
  rewrite <- Z.pow_add_r by lia.
  replace (Zpos n~1) with (Zpos n + Zpos n + 1) by lia.
  rewrite Z.pow_add_r by lia. rewrite Z.pow_1_r. reflexivity.
Qed.

Lemma iter_shr_1_exact (n : positive) :
  forall q, 0 <= q ->
  iter_pos shr_1 n {| shr_m := q * 2 ^ Zpos n; shr_r := false; shr_s := false |}
  = {| shr_m := q; shr_r := false; shr_s := false |}.
Proof.
  induction n as [n IH|n IH|]; intros q Hq; cbn [iter_pos].
  - replace (q * 2 ^ Zpos n~1) with ((q * 2 ^ Zpos n * 2 ^ Zpos n) * 2)
      by (rewrite pow2_xI; ring).
    rewrite shr_1_even by (apply Z.mul_nonneg_nonneg; [apply Z.mul_nonneg_nonneg|]; lia).
    rewrite IH by (apply Z.mul_nonneg_nonneg; lia). apply IH; lia.
  - replace (q * 2 ^ Zpos n~0) with ((q * 2 ^ Zpos n) * 2 ^ Zpos n)
      by (rewrite pow2_xO; ring).
    rewrite IH by (apply Z.mul_nonneg_nonneg; lia). apply IH; lia.
  - rewrite Z.pow_1_r. apply shr_1_even; lia.
Qed.

(** Rounding a mantissa [q * 2^k] of at least 53 bits whose bits below the
    53 leading ones are zero. *)
Lemma binary_round_aux_exact (s : bool) (q k E : Z) :
  0 < q -> 0 <= k -> Num.bits q <= 53 -> 53 <= Num.bits q + k ->
  -1074 <= E + Num.bits q + k - 53 <= 971 ->
  binary_round_aux Num.prec Num.emax s (q * 2 ^ k) E loc_Exact
  = S754_finite s (Z.to_pos (q * 2 ^ (53 - Num.bits q))) (E + Num.bits q + k - 53).
Proof.
  intros Hq Hk Hb Hbk HE.
  set (n := Num.bits q + k - 53).
  assert (Hm : 0 < q * 2 ^ k) by (apply Z.mul_pos_pos; lia).
  assert (Hm' : 0 < q * 2 ^ (53 - Num.bits q)) by (apply Z.mul_pos_pos; lia).
  assert (Hfirst : shr_fexp Num.prec Num.emax (q * 2 ^ k) E loc_Exact
                   = ({| shr_m := q * 2 ^ (53 - Num.bits q); shr_r := false; shr_s := false |},
                      E + n)).
  { unfold shr_fexp. rewrite Zdigits2_bits by exact Hm. rewrite bits_shift by lia.
    unfold fexp, emin, Num.prec, Num.emax. cbn [shr_record_of_loc].
    replace (Z.max (Num.bits q + k + E - 53) (3 - 1024 - 53) - E) with n by (unfold n; lia).
    unfold shr. destruct n as [|p|p] eqn:Hn; try lia.
    - replace (53 - Num.bits q) with k by lia. f_equal. lia.
    - replace (q * 2 ^ k) with (q * 2 ^ (53 - Num.bits q) * 2 ^ Zpos p).
      + rewrite iter_shr_1_exact by lia. reflexivity.
      + rewrite <- Z.mul_assoc, <- Z.pow_add_r by lia. do 2 f_equal. lia. }
  unfold binary_round_aux. rewrite Hfirst. cbn [shr_m loc_of_shr_record round_nearest_even].
  assert (Hsecond : shr_fexp Num.prec Num.emax (q * 2 ^ (53 - Num.bits q)) (E + n) loc_Exact
                   = ({| shr_m := q * 2 ^ (53 - Num.bits q); shr_r := false; shr_s := false |},
                      E + n)).
  { unfold shr_fexp. rewrite Zdigits2_bits by exact Hm'. rewrite bits_shift by lia.
    unfold fexp, emin, Num.prec, Num.emax. cbn [shr_record_of_loc].
    replace (Z.max (Num.bits q + (53 - Num.bits q) + (E + n) - 53) (3 - 1024 - 53) - (E + n))
      with 0 by (unfold n; lia).
    reflexivity. }
  rewrite Hsecond. cbn [shr_m].
  destruct (q * 2 ^ (53 - Num.bits q)) as [|m|m] eqn:Hmant; try lia.
  unfold Num.emax, Num.prec.
  replace (E + n <=? 1024 - 53) with true by (symmetry; apply Z.leb_le; unfold n; lia).
  simpl Z.to_pos. f_equal. unfold n. lia.
Qed.

Lemma fexp_normal (e : Z) :
  -1021 <= e -> fexp Num.prec Num.emax e = e - 53.
Proof. intros. unfold fexp, emin, Num.prec, Num.emax. lia. Qed.

Lemma iter_xO_pow2 (p d : positive) :
  Zpos (Pos.iter xO p d) = Zpos p * 2 ^ Zpos d.
Proof.
  change (Pos.iter xO p d) with (shift_pos d p).
  rewrite shift_pos_correct. change (Z.pow_pos 2 d) with (2 ^ Zpos d). ring.
Qed.

(** The Number of an integer below 2^53: its 53-bit mantissa and exponent. *)
Lemma of_Z_normal (z : Z) :
  0 < z < 2 ^ 53 ->
  Num.of_Z z = S754_finite false (Z.to_pos (z * 2 ^ (53 - Num.bits z))) (Num.bits z - 53).
Proof.
  intros [Hz Hlt].
  pose proof (bits_le z 53 Hz Hlt) as Hb. pose proof (bits_pos z Hz) as Hb1.
  destruct z as [|p|p]; try lia.
  unfold Num.of_Z, binary_normalize, binary_round, shl_align.
  change (Zpos (digits2_pos p)) with (Zdigits2 (Zpos p)).
  rewrite Zdigits2_bits by lia.
  rewrite fexp_normal by lia.
  replace (Num.bits (Zpos p) + 0 - 53 - 0) with (Num.bits (Zpos p) - 53) by lia.
  replace (Num.bits (Zpos p) + 0 - 53) with (Num.bits (Zpos p) - 53) by lia.
  destruct (Num.bits (Zpos p) - 53) as [|d|d] eqn:Hd; try lia.
  - pose proof (binary_round_aux_exact false (Zpos p) 0 0) as Hr.
    rewrite Z.pow_0_r, Z.mul_1_r in Hr. rewrite Hr by lia.
    f_equal; lia.
  - rewrite iter_xO_pow2.
    rewrite (binary_round_aux_exact false (Zpos p) (Zpos d) (Zneg d)) by lia.
    f_equal. lia.
Qed.

(** Integers below 2^53 in magnitude are Numbers. *)
Lemma exact_Z_normal (s : bool) (z : Z) :
  0 < z < 2 ^ 53 ->
  Num.exact_Z (S754_finite s (Z.to_pos (z * 2 ^ (53 - Num.bits z))) (Num.bits z - 53))
  = Some (if s then - z else z).
Proof.
  intros [Hz Hlt].
  pose proof (bits_le z 53 Hz Hlt) as Hb. pose proof (bits_pos z Hz) as Hb1.
  assert (Hp : 0 < 2 ^ (53 - Num.bits z)) by (apply Z.pow_pos_nonneg; lia).
  unfold Num.exact_Z. rewrite Z2Pos.id by (apply Z.mul_pos_pos; lia).
  destruct (0 <=? Num.bits z - 53) eqn:He.
  - apply Z.leb_le in He. replace (53 - Num.bits z) with 0 by lia.
    replace (Num.bits z - 53) with 0 by lia.
    rewrite Z.pow_0_r, !Z.mul_1_r. reflexivity.
  - replace (- (Num.bits z - 53)) with (53 - Num.bits z) by lia.
    rewrite Z.mod_mul by lia. rewrite Z.eqb_refl.
    rewrite Z.div_mul by lia. reflexivity.
Qed.

Lemma exact_Z_of_Z (z : Z) :
  0 <= z < 2 ^ 53 -> Num.exact_Z (Num.of_Z z) = Some z.
Proof.
  intros [Hz Hlt]. destruct (Z.eq_dec z 0) as [->|Hne]; [reflexivity|].
  rewrite of_Z_normal by lia. apply (exact_Z_normal false). lia.
Qed.

(** The product of two positive integers is computed without rounding as
    long as it stays below 2^53. *)
Lemma mul_of_Z (a b : Z) :
  0 <= a < 2 ^ 53 -> 0 <= b < 2 ^ 53 -> a * b < 2 ^ 53 ->
  Num.mul (Num.of_Z a) (Num.of_Z b) = Num.of_Z (a * b).
Proof.
  intros [Ha Ha53] [Hb Hb53] Hab.
  destruct (Z.eq_dec a 0) as [->|Ha0].
  { destruct (Z.eq_dec b 0) as [->|Hb0]; [reflexivity|].
    rewrite (of_Z_normal b) by lia. reflexivity. }
  destruct (Z.eq_dec b 0) as [->|Hb0].
  { rewrite Z.mul_0_r. rewrite (of_Z_normal a) by lia. reflexivity. }
  assert (Hab0 : 0 < a * b) by nia.
  pose proof (bits_le a 53 ltac:(lia) Ha53) as Hba.
  pose proof (bits_le b 53 ltac:(lia) Hb53) as Hbb.
  pose proof (bits_le (a * b) 53 Hab0 Hab) as Hbab.
  pose proof (bits_pos a ltac:(lia)) as Hba1.
  pose proof (bits_pos b ltac:(lia)) as Hbb1.
  pose proof (bits_pos (a * b) Hab0) as Hbab1.
  assert (Hsum : Num.bits a + Num.bits b - 1 <= Num.bits (a * b)).
  { unfold Num.bits. pose proof (Z.log2_mul_below a b ltac:(lia) ltac:(lia)). lia. }
  rewrite (of_Z_normal a), (of_Z_normal b), (of_Z_normal (a * b)) by lia.
  unfold Num.mul, SFmul. cbn [xorb].
  rewrite Pos2Z.inj_mul.
  rewrite !Z2Pos.id by (apply Z.mul_pos_pos; [lia|apply Z.pow_pos_nonneg; lia]).
  replace (a * 2 ^ (53 - Num.bits a) * (b * 2 ^ (53 - Num.bits b)))
    with (a * b * 2 ^ (106 - Num.bits a - Num.bits b)).
  - rewrite binary_round_aux_exact by lia. f_equal. lia.
  - replace (106 - Num.bits a - Num.bits b) with ((53 - Num.bits a) + (53 - Num.bits b)) by lia.
    rewrite Z.pow_add_r by lia. ring.
Qed.

End NumFacts.

(** ** Running the asynchronous functions *)

Section Runs.

Context {C : Type} `{ModbusRTU C}.

Local Open Scope string_scope.

Lemma with_io_with_io (w : World C) (c1 c2 : C) (r1 r2 : list request)
    (l1 l2 : list console_line) :
  with_io (with_io w c1 r1 l1) c2 r2 l2 = with_io w c2 (r1 ++ r2) (l1 ++ l2).
Proof.
  unfold with_io; cbn. now rewrite <- !app_assoc.
Qed.

Lemma read_run (address count : Z) (w : World C) :
  read address count w
  = (fst (readHoldingRegisters address count (modbusClient w)),
     with_io w (snd (readHoldingRegisters address count (modbusClient w)))
             [ReqReadHoldingRegisters address count] []).
Proof.
  unfold read, call.
  now destruct (readHoldingRegisters address count (modbusClient w)).
Qed.

(** The three reads resolve: the Reading is built from their first words. *)
Lemma fetchSolarData_resolves (w : World C) (power energy volts : list Z) (c' : C) :
  reads_succeed (modbusClient w) power energy volts c' ->
  fetchSolarData w
  = (Resolved (Some
       {| activePower := Num.mul (ToNumber (index power 0)) (Num.of_Z 100);
          dailyEnergy := Num.mul (ToNumber (index energy 0)) (Num.of_Z 100);
          voltage := Num.mul (ToNumber (index volts 0)) (Num.of_Z 10);
          timestamp := clock w |}),
     with_io w c' register_reads []).
Proof.
  intros (c1 & c2 & H1 & H2 & H3).
  unfold fetchSolarData, try_catch, bind, new_Date, ret.
  rewrite read_run, H1; cbn [fst snd].
  rewrite read_run; cbn [modbusClient with_io]; rewrite H2; cbn [fst snd].
  rewrite read_run; cbn [modbusClient with_io]; rewrite H3; cbn [fst snd].
  rewrite !with_io_with_io. reflexivity.
Qed.

(** A read is rejected: the later reads are not issued and the result is
    [null]. *)
Lemma fetchSolarData_rejects (w : World C) (k : nat) (err : error) (c' : C) :
  read_fails (modbusClient w) k err c' ->
  fetchSolarData w
  = (Resolved None,
     with_io w c' (firstn (S k) register_reads)
             [ConsoleError "Error fetching data:" err]).
Proof.
  intros Hfail.
  unfold fetchSolarData, try_catch, bind, new_Date, ret, print.
  destruct Hfail as [err c' H1 | power c1 err c' H1 H2
                     | power c1 energy c2 err c' H1 H2 H3].
  - rewrite read_run, H1; cbn [fst snd modbusClient with_io].
    rewrite !with_io_with_io. reflexivity.
  - rewrite read_run, H1; cbn [fst snd].
    rewrite read_run; cbn [modbusClient with_io]; rewrite H2; cbn [fst snd].
    cbn [modbusClient with_io]. rewrite !with_io_with_io. reflexivity.
  - rewrite read_run, H1; cbn [fst snd].
    rewrite read_run; cbn [modbusClient with_io]; rewrite H2; cbn [fst snd].
    rewrite read_run; cbn [modbusClient with_io]; rewrite H3; cbn [fst snd].
    cbn [modbusClient with_io]. rewrite !with_io_with_io. reflexivity.
Qed.

(** Every client either lets the three reads resolve or rejects one. *)
Lemma reads_succeed_or_fail (c : C) :
  (exists power energy volts c', reads_succeed c power energy volts c')
  \/ (exists k err c', read_fails c k err c').
Proof.
  destruct (readHoldingRegisters 32080 2 c) as [[power|err] c1] eqn:H1.
  2: { right. exists 0%nat, err, c1. now constructor. }
  destruct (readHoldingRegisters 32106 2 c1) as [[energy|err] c2] eqn:H2.
  2: { right. exists 1%nat, err, c2. econstructor; eassumption. }
  destruct (readHoldingRegisters 32066 1 c2) as [[volts|err] c3] eqn:H3.
  2: { right. exists 2%nat, err, c3. econstructor; eassumption. }
  left. exists power, energy, volts, c3, c1, c2. auto.
Qed.

Lemma calculateCosts_run (data : Reading) (w : World C) :
  calculateCosts data w
  = (Resolved
       {| dailySavings :=
            Fixed.toFixed (Num.mul (Num.div (dailyEnergy data) (Num.of_Z 1000))
                                   (purchase (ENERGY_COST w))) 2;
          potentialRevenue :=
            Fixed.toFixed (Num.mul (Num.div (dailyEnergy data) (Num.of_Z 1000))
                                   (sale (ENERGY_COST w))) 2;
          energyProduced :=
            Fixed.toFixed (Num.div (dailyEnergy data) (Num.of_Z 1000)) 2 |},
     w).
Proof. reflexivity. Qed.

End Runs.

(** ** Properties of the number formatting *)

Module FixedFacts.

Lemma nearest_is_nearest (m : positive) (e : Z) (f : nat) :
  Fixed.is_nearest m e f (Fixed.nearest m e f).
Proof.
  unfold Fixed.is_nearest, Fixed.nearest.
  destruct (0 <=? e) eqn:He.
  - apply Z.leb_le in He.
    replace (Z.max 0 (- e)) with 0 by lia. replace (Z.max 0 e) with e by lia.
    rewrite Z.pow_0_r.
    replace (Zpos m * 10 ^ Z.of_nat f * 2 ^ e) with (Zpos m * 2 ^ e * 10 ^ Z.of_nat f) by ring.
    lia.
  - apply Z.leb_gt in He.
    replace (Z.max 0 (- e)) with (- e) by lia. replace (Z.max 0 e) with 0 by lia.
    rewrite Z.pow_0_r, Z.mul_1_r.
    set (num := Zpos m * 10 ^ Z.of_nat f).
    assert (Hk : 0 < 2 ^ (- e)) by (apply Z.pow_pos_nonneg; lia).
    replace (2 ^ (- e + 1)) with (2 * 2 ^ (- e))
      by (rewrite Z.pow_add_r by lia; rewrite Z.pow_1_r; ring).
    pose proof (Z.div_mod (2 * num + 2 ^ (- e)) (2 * 2 ^ (- e)) ltac:(lia)) as Hdm.
    pose proof (Z.mod_pos_bound (2 * num + 2 ^ (- e)) (2 * 2 ^ (- e)) ltac:(lia)) as Hr.
    set (n := (2 * num + 2 ^ (- e)) / (2 * 2 ^ (- e))) in *.
    set (r := (2 * num + 2 ^ (- e)) mod (2 * 2 ^ (- e))) in *.
    nia.
Qed.

Lemma toFixed_shows_two_decimals (x : number) :
  shows_two_decimals x (Fixed.toFixed x 2).
Proof.
  split; [reflexivity|].
  destruct x as [s|s| |s m e]; try exact I.
  intros Hsmall. exists (Fixed.nearest m e 2). split.
  - apply nearest_is_nearest.
  - unfold Fixed.toFixed. now rewrite Hsmall.
Qed.

End FixedFacts.

(** ** Properties of the sampling and of the estimator *)

Section Properties.

Context {C : Type} `{ModbusRTU C}.

Local Open Scope string_scope.

(** A register word times a scale of at most 100 is an exact Number. *)
Lemma scaled_word_exact (word scale : Z) :
  is_word word -> 0 <= scale <= 100 ->
  Num.exact_Z (Num.mul (Num.of_Z word) (Num.of_Z scale)) = Some (word * scale).
Proof.
  unfold is_word. intros Hw Hs.
  assert (Hbig : 2 ^ 53 = 9007199254740992) by reflexivity.
  assert (Hprod : 0 <= word * scale <= 6553500) by nia.
  rewrite NumFacts.mul_of_Z by lia.
  apply NumFacts.exact_Z_of_Z. lia.
Qed.

Lemma index_0_hd (data : list Z) (word : Z) :
  hd_error data = Some word -> ToNumber (index data 0) = Num.of_Z word.
Proof.
  destruct data as [|x rest]; [discriminate|].
  intros [= ->]. reflexivity.
Qed.

(** C1. When the three register groups of a sampling are read, each
    decoded value is the group's raw register value (the first word of
    the response) times the group's scale, 100 for the active power and
    the daily energy and 10 for the voltage, and the Number holding it is
    that integer exactly: nothing is rounded. *)
Theorem decoded_value_is_raw_times_scale
    (w : World C) (power energy volts : list Z) (c' : C) (rp re rv : Z) :
  reads_succeed (modbusClient w) power energy volts c' ->
  hd_error power = Some rp -> hd_error energy = Some re ->
  hd_error volts = Some rv ->
  is_word rp -> is_word re -> is_word rv ->
  exists r,
    fetchSolarData w = (Resolved (Some r), with_io w c' register_reads [])
    /\ Num.exact_Z (activePower r) = Some (rp * 100)
    /\ Num.exact_Z (dailyEnergy r) = Some (re * 100)
    /\ Num.exact_Z (voltage r) = Some (rv * 10).
Proof.
  intros Hreads Hp He Hv Wp We Wv.
  eexists. split; [apply fetchSolarData_resolves; exact Hreads|].
  cbn [activePower dailyEnergy voltage].
  rewrite (index_0_hd _ _ Hp), (index_0_hd _ _ He), (index_0_hd _ _ Hv).
  repeat split; apply scaled_word_exact; auto; lia.
Qed.

(** C2. When a register read of a sampling is rejected, the reads after
    it are not issued and the sampling returns its failure result [null];
    and a Reading is only ever returned when the three reads of this very
    sampling resolved, built from their three responses. *)
Theorem failed_read_aborts_sampling (w : World C) :
  (forall k err c',
      read_fails (modbusClient w) k err c' ->
      fetchSolarData w
      = (Resolved None,
         with_io w c' (firstn (S k) register_reads)
                 [ConsoleError "Error fetching data:" err]))
  /\ (forall r w',
      fetchSolarData w = (Resolved (Some r), w') ->
      exists power energy volts c',
        reads_succeed (modbusClient w) power energy volts c'
        /\ w' = with_io w c' register_reads []
        /\ r = {| activePower := Num.mul (ToNumber (index power 0)) (Num.of_Z 100);
                  dailyEnergy := Num.mul (ToNumber (index energy 0)) (Num.of_Z 100);
                  voltage := Num.mul (ToNumber (index volts 0)) (Num.of_Z 10);
                  timestamp := clock w |}).
Proof.
  split.
  - intros k err c' Hfail. now apply fetchSolarData_rejects.
  - intros r w' Hrun.
    destruct (reads_succeed_or_fail (modbusClient w))
      as [(power & energy & volts & c' & Hok) | (k & err & c' & Hfail)].
    + rewrite (fetchSolarData_resolves _ _ _ _ _ Hok) in Hrun.
      injection Hrun as Hr Hw. exists power, energy, volts, c'. auto.
    + rewrite (fetchSolarData_rejects _ _ _ _ Hfail) in Hrun. discriminate.
Qed.


(** C4, as the code has it. Of every register group, also of those of two
    words, only the first word of the response is the raw value that is
    scaled; the words after it have no influence on the Reading. *)
Theorem decoding_uses_first_word_only
    (w : World C) (rp re rv : Z) (power_rest energy_rest volts_rest : list Z)
    (c' : C) :
  reads_succeed (modbusClient w) (rp :: power_rest) (re :: energy_rest)
                (rv :: volts_rest) c' ->
  fetchSolarData w
  = (Resolved (Some {| activePower := Num.mul (Num.of_Z rp) (Num.of_Z 100);
                       dailyEnergy := Num.mul (Num.of_Z re) (Num.of_Z 100);
                       voltage := Num.mul (Num.of_Z rv) (Num.of_Z 10);
                       timestamp := clock w |}),
     with_io w c' register_reads []).
Proof.
  intros Hreads. now rewrite (fetchSolarData_resolves _ _ _ _ _ Hreads).
Qed.

Lemma api_solar_data_after_failure (w : World C) (k : nat) (err : error) (c' : C) :
  read_fails (modbusClient w) k err c' ->
  api_solar_data w
  = (Resolved {| status := 500; payload := ErrorBody "Failed to fetch data" |},
     with_io w c' (firstn (S k) register_reads)
             [ConsoleError "Error fetching data:" err]).
Proof.
  intros Hfail. unfold api_solar_data, bind.
  now rewrite (fetchSolarData_rejects _ _ _ _ Hfail).
Qed.

Lemma api_solar_data_after_success (w : World C) (power energy volts : list Z) (c' : C) :
  reads_succeed (modbusClient w) power energy volts c' ->
  exists data costs,
    fetchSolarData w = (Resolved (Some data), with_io w c' register_reads [])
    /\ calculateCosts data (with_io w c' register_reads [])
       = (Resolved costs, with_io w c' register_reads [])
    /\ api_solar_data w
       = (Resolved {| status := 200; payload := SolarBody data costs |},
          with_io w c' register_reads []).
Proof.
  intros Hok. do 2 eexists. split; [|split].
  - apply (fetchSolarData_resolves _ _ _ _ _ Hok).
  - apply calculateCosts_run.
  - unfold api_solar_data, bind.
    rewrite (fetchSolarData_resolves _ _ _ _ _ Hok).
    rewrite calculateCosts_run. reflexivity.
Qed.

(** C5. When a sampling fails, the handler of the query answers with
    status 500 and an error body; and whenever its answer carries a
    Reading, the status is 200 and the Reading is the one the sampling of
    this request returned, so that no stand-in Reading is ever sent. *)
Theorem failed_sample_is_an_error_response (w : World C) :
  (forall k err c',
      read_fails (modbusClient w) k err c' ->
      api_solar_data w
      = (Resolved {| status := 500; payload := ErrorBody "Failed to fetch data" |},
         with_io w c' (firstn (S k) register_reads)
                 [ConsoleError "Error fetching data:" err]))
  /\ (forall resp w' data costs,
      api_solar_data w = (Resolved resp, w') ->
      payload resp = SolarBody data costs ->
      status resp = 200 /\ fetchSolarData w = (Resolved (Some data), w')).
Proof.
  split.
  - intros k err c' Hfail. now apply api_solar_data_after_failure.
  - intros resp w' data costs Hrun Hbody.
    destruct (reads_succeed_or_fail (modbusClient w))
      as [(power & energy & volts & c' & Hok) | (k & err & c' & Hfail)].
    + destruct (api_solar_data_after_success _ _ _ _ _ Hok)
        as (data' & costs' & Hfetch & _ & Hapi).
      rewrite Hapi in Hrun. injection Hrun as <- <-.
      cbn in Hbody. injection Hbody as -> ->. auto.
    + rewrite (api_solar_data_after_failure _ _ _ _ Hfail) in Hrun.
      injection Hrun as <- <-. discriminate.
Qed.

(** C6, as the code has it. A sampling never attempts a connect, whatever
    the state of the session: the calls it issues on the client are
    register reads, a first part of the three reads of the source.  When
    the first read is rejected, as on a session that is not connected, it
    returns [null] after that one read: no further read, no Reading. *)
Theorem sampling_issues_reads_only (w : World C) :
  (exists res n w',
      fetchSolarData w = (Resolved res, w')
      /\ requests w' = (requests w ++ firstn n register_reads)%list)
  /\ (forall err c',
      readHoldingRegisters 32080 2 (modbusClient w) = (Rejected err, c') ->
      fetchSolarData w
      = (Resolved None,
         with_io w c' [ReqReadHoldingRegisters 32080 2]
                 [ConsoleError "Error fetching data:" err])).
Proof.
  split.
  - destruct (reads_succeed_or_fail (modbusClient w))
      as [(power & energy & volts & c' & Hok) | (k & err & c' & Hfail)].
    + eexists _, 3%nat, _. split.
      * apply (fetchSolarData_resolves _ _ _ _ _ Hok).
      * reflexivity.
    + eexists _, (S k), _. split.
      * apply (fetchSolarData_rejects _ _ _ _ Hfail).
      * reflexivity.
  - intros err c' Hrej.
    apply (fetchSolarData_rejects w 0 err c'). now constructor.
Qed.

(** C7, as the code has it. The estimate the estimator returns holds the
    rounded values themselves: each field is the [toFixed(2)] string of
    the computed value, that is, for a finite value of magnitude below
    10^21, the sign and the digits of the integer nearest to a hundred
    times the value, with the point before the last two digits.  The
    unrounded values are not part of the estimate. *)
Theorem estimate_stores_rounded_values (w : World C) (data : Reading) :
  exists est,
    calculateCosts data w = (Resolved est, w)
    /\ shows_two_decimals
         (Num.mul (Num.div (dailyEnergy data) (Num.of_Z 1000))
                  (purchase (ENERGY_COST w)))
         (dailySavings est)
    /\ shows_two_decimals
         (Num.mul (Num.div (dailyEnergy data) (Num.of_Z 1000))
                  (sale (ENERGY_COST w)))
         (potentialRevenue est)
    /\ shows_two_decimals
         (Num.div (dailyEnergy data) (Num.of_Z 1000))
         (energyProduced est).
Proof.
  eexists. split; [apply calculateCosts_run|].
  cbn [dailySavings potentialRevenue energyProduced].
  repeat split; apply FixedFacts.toFixed_shows_two_decimals.
Qed.

(** The estimate of a day of 12000 Wh under the tariff of the source. *)
Lemma estimate_of_12000_Wh :
  let kwh := Num.div (Num.mul (Num.of_Z 120) (Num.of_Z 100)) (Num.of_Z 1000) in
  Fixed.toFixed (Num.mul kwh (Num.literal 25 2)) 2 = Str "3.00"
  /\ Fixed.toFixed (Num.mul kwh (Num.literal 12 2)) 2 = Str "1.44"
  /\ Fixed.toFixed kwh 2 = Str "12.00".
Proof. vm_compute. repeat split. Qed.

(** C8. With a raw power register of 50 and a raw energy register of 120
    as the first words of their groups, and the tariff of the source
    (0.25 and 0.12 euro per kWh), the query answers with an active power
    of 5000 W, a daily energy of 12000 Wh, an energy produced of 12.00
    kWh, daily savings of 3.00 and a potential revenue of 1.44. *)
Theorem scenario_50_120
    (w : World C) (power_rest energy_rest volts : list Z) (c' : C) :
  reads_succeed (modbusClient w) (50 :: power_rest) (120 :: energy_rest) volts c' ->
  ENERGY_COST w = {| purchase := Num.literal 25 2; sale := Num.literal 12 2 |} ->
  exists data,
    api_solar_data w
    = (Resolved {| status := 200;
                   payload := SolarBody data
                     {| dailySavings := Str "3.00";
                        potentialRevenue := Str "1.44";
                        energyProduced := Str "12.00" |} |},
       with_io w c' register_reads [])
    /\ Num.exact_Z (activePower data) = Some 5000
    /\ Num.exact_Z (dailyEnergy data) = Some 12000.
Proof.
  intros Hok Htariff.
  exists {| activePower := Num.mul (Num.of_Z 50) (Num.of_Z 100);
            dailyEnergy := Num.mul (Num.of_Z 120) (Num.of_Z 100);
            voltage := Num.mul (ToNumber (index volts 0)) (Num.of_Z 10);
            timestamp := clock w |}.
  destruct estimate_of_12000_Wh as (Hsavings & Hrevenue & Henergy).
  split; [|split].
  - unfold api_solar_data, bind.
    rewrite (fetchSolarData_resolves _ _ _ _ _ Hok), calculateCosts_run.
    cbn [ENERGY_COST with_io dailyEnergy index nth_error ToNumber].
    rewrite Htariff. cbn [purchase sale].
    rewrite Hsavings, Hrevenue, Henergy. reflexivity.
  - cbn [activePower]. apply (scaled_word_exact 50 100); unfold is_word; lia.
  - cbn [dailyEnergy]. apply (scaled_word_exact 120 100); unfold is_word; lia.
Qed.

(** C9. The estimator is a function of the Reading and of the tariff
    alone, and it has no effect: in two worlds with the same tariff it
    returns the same estimate for the same Reading, it leaves each world
    as it was, and evaluating it a second time gives again the estimate
    and the world of the first evaluation. *)
Theorem calculateCosts_pure (data : Reading) (w1 w2 : World C) :
  ENERGY_COST w1 = ENERGY_COST w2 ->
  fst (calculateCosts data w1) = fst (calculateCosts data w2)
  /\ snd (calculateCosts data w1) = w1
  /\ bind (calculateCosts data) (fun _ => calculateCosts data) w1
     = calculateCosts data w1.
Proof.
  intros Htariff. unfold bind. rewrite !calculateCosts_run. cbn [fst snd].
  rewrite Htariff. auto.
Qed.

(** C10. [connectToInverter] never rejects: whatever the connection
    attempt does, it resolves.  A rejected attempt shows in nothing but
    the console, as one error line carrying the cause; an attempt that
    resolves, followed by [setID], shows as the line of success. *)
Theorem connectToInverter_never_rejects (w : World C) :
  exists w',
    connectToInverter w = (Resolved tt, w')
    /\ (forall err c',
        connectTCP (INVERTER_IP w) MODBUS_PORT (modbusClient w) = (Rejected err, c') ->
        w' = with_io w c' [ReqConnectTCP (INVERTER_IP w) MODBUS_PORT]
                     [ConsoleError "Connection error:" err])
    /\ (forall u1 c1 u2 c2,
        connectTCP (INVERTER_IP w) MODBUS_PORT (modbusClient w) = (Resolved u1, c1) ->
        setID UNIT_ID c1 = (Resolved u2, c2) ->
        w' = with_io w c2 [ReqConnectTCP (INVERTER_IP w) MODBUS_PORT; ReqSetID UNIT_ID]
                     [ConsoleLog "Connected to Huawei inverter"]).
Proof.
  unfold connectToInverter, try_catch, bind, get_INVERTER_IP, call, print.
  destruct (connectTCP (INVERTER_IP w) MODBUS_PORT (modbusClient w))
    as [[u1|err1] c1] eqn:Hconn.
  - cbn [modbusClient with_io].
    destruct (setID UNIT_ID c1) as [[u2|err2] c2] eqn:Hid.
    + destruct u2. eexists. split; [reflexivity|]. split.
      * intros err c' [=].
      * intros v1 d1 v2 d2 [= <- <-] Hid'. rewrite Hid in Hid'.
        injection Hid' as <- <-. cbn [modbusClient with_io].
        now rewrite !with_io_with_io.
    + eexists. split; [reflexivity|]. split.
      * intros err c' [=].
      * intros v1 d1 v2 d2 [= <- <-] Hid'. rewrite Hid in Hid'. discriminate.
  - eexists. split; [reflexivity|]. split.
    + intros err c' [= <- <-]. cbn [modbusClient with_io].
      now rewrite !with_io_with_io.
    + intros v1 d1 v2 d2 [=].
Qed.

End Properties.

(** ** The properties on sample worlds *)

Module OnSamples.

Import Scripted Samples.

Local Open Scope string_scope.

Lemma healthy_reads :
  reads_succeed (modbusClient healthy) [50; 0] [120; 0] [2305] (connected []).
Proof.
  exists (connected [Resolved [120; 0]; Resolved [2305]]),
         (connected [Resolved [2305]]).
  repeat split.
Defined.

Lemma low_words_reads :
  reads_succeed (modbusClient low_words) [0; 50] [0; 120] [2305] (connected []).
Proof.
  exists (connected [Resolved [0; 120]; Resolved [2305]]),
         (connected [Resolved [2305]]).
  repeat split.
Defined.

Lemma link_lost_midway_fails :
  read_fails (modbusClient link_lost_midway) 1 "Timed out" (connected []).
Proof.
  apply (energy_read_fails _ [50; 0] (connected [Rejected "Timed out"]));
    reflexivity.
Defined.

(** C1 on the healthy inverter. *)
Lemma decoded_value_is_raw_times_scale_healthy :
  exists r,
    fetchSolarData healthy
    = (Resolved (Some r), with_io healthy (connected []) register_reads [])
    /\ Num.exact_Z (activePower r) = Some (50 * 100)
    /\ Num.exact_Z (dailyEnergy r) = Some (120 * 100)
    /\ Num.exact_Z (voltage r) = Some (2305 * 10).
Proof.
  apply (decoded_value_is_raw_times_scale
           healthy [50; 0] [120; 0] [2305] (connected []) 50 120 2305).
  - exact healthy_reads.
  - reflexivity.
  - reflexivity.
  - reflexivity.
  - unfold is_word; lia.
  - unfold is_word; lia.
  - unfold is_word; lia.
Defined.

(** C2 when the link is lost after the first read: the third read is not
    issued. *)
Lemma failed_read_aborts_sampling_link_lost :
  fetchSolarData link_lost_midway
  = (Resolved None,
     with_io link_lost_midway (connected [])
             [ReqReadHoldingRegisters 32080 2; ReqReadHoldingRegisters 32106 2]
             [ConsoleError "Error fetching data:" "Timed out"]).
Proof.
  apply (proj1 (failed_read_aborts_sampling link_lost_midway) 1%nat "Timed out").
  exact link_lost_midway_fails.
Defined.

(** C4 as the specification words it fails where the value sits in the
    second word of a group: the concatenation of the words 0 and 50 is 50,
    which scaled is 5000, and the active power decoded is 0. *)
Lemma first_word_is_not_the_concatenation :
  exists r w',
    fetchSolarData low_words = (Resolved (Some r), w')
    /\ Num.exact_Z (activePower r) = Some 0
    /\ Num.exact_Z (activePower r) <> Some (concat_msw_first [0; 50] * 100).
Proof.
  do 2 eexists. split; [|split].
  - reflexivity.
  - reflexivity.
  - discriminate.
Qed.

(** C4 as the code has it, on the same inverter. *)
Lemma decoding_uses_first_word_only_low_words :
  fetchSolarData low_words
  = (Resolved (Some {| activePower := Num.mul (Num.of_Z 0) (Num.of_Z 100);
                       dailyEnergy := Num.mul (Num.of_Z 0) (Num.of_Z 100);
                       voltage := Num.mul (Num.of_Z 2305) (Num.of_Z 10);
                       timestamp := clock low_words |}),
     with_io low_words (connected []) register_reads []).
Proof.
  apply (decoding_uses_first_word_only low_words 0 0 2305 [50] [120] []).
  exact low_words_reads.
Defined.

(** C5 when the link is lost after the first read. *)
Lemma failed_sample_is_an_error_response_link_lost :
  api_solar_data link_lost_midway
  = (Resolved {| status := 500; payload := ErrorBody "Failed to fetch data" |},
     with_io link_lost_midway (connected [])
             [ReqReadHoldingRegisters 32080 2; ReqReadHoldingRegisters 32106 2]
             [ConsoleError "Error fetching data:" "Timed out"]).
Proof.
  apply (proj1 (failed_sample_is_an_error_response link_lost_midway)
               1%nat "Timed out").
  exact link_lost_midway_fails.
Defined.

(** C6 as the specification words it fails on a session that was never
    opened: the sampling issues a register read and no connect, and the
    client's pending connection attempt is still pending afterwards. *)
Lemma sampling_does_not_reconnect :
  exists w',
    fetchSolarData never_connected = (Resolved None, w')
    /\ requests w' = [ReqReadHoldingRegisters 32080 2]
    /\ modbusClient w' = disconnected [Rejected "EHOSTUNREACH"].
Proof.
  eexists. split; [|split]; reflexivity.
Qed.

(** C6 as the code has it, on the same session. *)
Lemma sampling_issues_reads_only_never_connected :
  fetchSolarData never_connected
  = (Resolved None,
     with_io never_connected (modbusClient never_connected)
             [ReqReadHoldingRegisters 32080 2]
             [ConsoleError "Error fetching data:" "Port Not Open"]).
Proof.
  apply (proj2 (sampling_issues_reads_only never_connected) "Port Not Open").
  reflexivity.
Defined.

(** C7 as the specification words it fails on a day of 100 Wh: the
    savings computed are 0.025000000000000001 euro (0.1 kWh at 0.25), and
    the estimate stores the string of 3 hundredths. *)
Lemma estimate_stores_three_cents :
  exists est q,
    calculateCosts first_light healthy = (Resolved est, healthy)
    /\ dailySavings est = Str (Fixed.point 3 2)
    /\ Num.to_Q (Num.mul (Num.div (dailyEnergy first_light) (Num.of_Z 1000))
                         (purchase (ENERGY_COST healthy))) = Some q
    /\ ~ (q == 3 # 100)%Q.
Proof.
  do 2 eexists. split; [|split; [|split]].
  - apply calculateCosts_run.
  - vm_compute. reflexivity.
  - vm_compute. reflexivity.
  - intros Heq. vm_compute in Heq. discriminate.
Qed.

(** C7 as the code has it, on the same day. *)
Example estimate_of_first_light :
  calculateCosts first_light healthy
  = (Resolved {| dailySavings := Str "0.03";
                 potentialRevenue := Str "0.01";
                 energyProduced := Str "0.10" |},
     healthy).
Proof. reflexivity. Qed.

(** C8 on the healthy inverter. *)
Lemma scenario_50_120_healthy :
  exists data,
    api_solar_data healthy
    = (Resolved {| status := 200;
                   payload := SolarBody data
                     {| dailySavings := Str "3.00";
                        potentialRevenue := Str "1.44";
                        energyProduced := Str "12.00" |} |},
       with_io healthy (connected []) register_reads [])
    /\ Num.exact_Z (activePower data) = Some 5000
    /\ Num.exact_Z (dailyEnergy data) = Some 12000.
Proof.
  apply (scenario_50_120 healthy [0] [0] [2305] (connected [])).
  - exact healthy_reads.
  - reflexivity.
Defined.

(** C9 on two worlds that differ in everything but the tariff. *)
Lemma calculateCosts_pure_healthy_busy :
  fst (calculateCosts first_light healthy) = fst (calculateCosts first_light busy)
  /\ snd (calculateCosts first_light healthy) = healthy
  /\ bind (calculateCosts first_light) (fun _ => calculateCosts first_light) healthy
     = calculateCosts first_light healthy.
Proof.
  apply (calculateCosts_pure first_light healthy busy). reflexivity.
Defined.

(** C10 at startup with an unreachable inverter: the callback of
    [app.listen] resolves, and the failure is the second console line. *)
Example on_listen_unreachable :
  on_listen never_connected
  = (Resolved tt,
     with_io never_connected (disconnected [])
             [ReqConnectTCP "192.168.1.100" 502]
             [ConsoleLog "Huawei Solar Monitor running at http://localhost:3000";
              ConsoleError "Connection error:" "EHOSTUNREACH"]).
Proof. reflexivity. Qed.

End OnSamples.


(** ** Strings with a decimal point *)

Module StringFacts.

Local Open Scope string_scope.






End StringFacts.

(** ** The server over its whole life, and the page *)

Section Lifetime.

Context {C : Type} `{ModbusRTU C}.

Local Open Scope string_scope.








End Lifetime.

Section Startup.

Context {C : Type} `{ModbusRTU C}.

Local Open Scope string_scope.

(** X3. The callback of [app.listen] resolves whatever happens.  It prints
    the banner first and attempts one connection, to [INVERTER_IP] at port
    502; the unit id 1 is bound only when that connection resolved; the
    last line tells the success, or carries the error of the connection
    or of the binding; and no register is read. *)
Theorem on_listen_run (w : World C) :
  let ip := INVERTER_IP w in
  match connectTCP ip MODBUS_PORT (modbusClient w) with
  | (Rejected err, c1) =>
      on_listen w
      = (Resolved tt,
         with_io w c1 [ReqConnectTCP ip MODBUS_PORT]
                 [banner; ConsoleError "Connection error:" err])
  | (Resolved _, c1) =>
      match setID UNIT_ID c1 with
      | (Resolved _, c2) =>
          on_listen w
          = (Resolved tt,
             with_io w c2 [ReqConnectTCP ip MODBUS_PORT; ReqSetID UNIT_ID]
                     [banner; ConsoleLog "Connected to Huawei inverter"])
      | (Rejected err, c2) =>
          on_listen w
          = (Resolved tt,
             with_io w c2 [ReqConnectTCP ip MODBUS_PORT; ReqSetID UNIT_ID]
                     [banner; ConsoleError "Connection error:" err])
      end
  end.
Proof.
  cbv zeta.
  unfold on_listen, connectToInverter, try_catch, bind, get_INVERTER_IP, call, print.
  cbn [modbusClient with_io INVERTER_IP].
  destruct (connectTCP (INVERTER_IP w) MODBUS_PORT (modbusClient w))
    as [[u1|err1] c1].
  - cbn [modbusClient with_io].
    destruct (setID UNIT_ID c1) as [[u2|err2] c2];
      cbn [modbusClient with_io]; now rewrite !with_io_with_io.
  - cbn [modbusClient with_io]. now rewrite !with_io_with_io.
Qed.

(** What the callback issues, whatever the connection does. *)
Lemma on_listen_cases (w : World C) :
  exists c' rest lines,
    on_listen w
    = (Resolved tt,
       with_io w c' (ReqConnectTCP (INVERTER_IP w) MODBUS_PORT :: rest) lines)
    /\ (rest = [] \/ rest = [ReqSetID UNIT_ID]).
Proof.
  unfold on_listen, connectToInverter, try_catch, bind, get_INVERTER_IP, call, print.
  cbn [modbusClient with_io INVERTER_IP].
  destruct (connectTCP (INVERTER_IP w) MODBUS_PORT (modbusClient w))
    as [[u1|err1] c1]; cbn [modbusClient with_io].
  - destruct (setID UNIT_ID c1) as [[u2|err2] c2]; cbn [modbusClient with_io];
      rewrite !with_io_with_io; eexists _, _, _; split;
        [reflexivity|now right|reflexivity|now right].
  - rewrite !with_io_with_io. eexists _, _, _; split; [reflexivity|now left].
Qed.

(** X4. The address the server connects to at startup is never empty: it
    is the value of the environment variable when that is set and not
    empty, and 192.168.1.100 when it is unset or empty. *)
Theorem startup_address (env : option string) (c : C) (now : Z) :
  exists ip c' rest lines,
    on_listen (boot env c now)
    = (Resolved tt,
       with_io (boot env c now) c' (ReqConnectTCP ip MODBUS_PORT :: rest) lines)
    /\ ip <> ""
    /\ (forall s, env = Some s -> s <> "" -> ip = s)
    /\ (env = None \/ env = Some "" -> ip = "192.168.1.100").
Proof.
  destruct (on_listen_cases (boot env c now)) as (c' & rest & lines & Hrun & _).
  exists (INVERTER_IP_of_env env), c', rest, lines.
  split; [exact Hrun|]. unfold INVERTER_IP_of_env.
  destruct env as [s|].
  - destruct (String.eqb_spec s "") as [->|Hne].
    + split; [discriminate|]. split; [|reflexivity].
      intros s' [= <-] Hs'. now elim Hs'.
    + split; [exact Hne|]. split.
      * now intros s' [= <-] _.
      * intros [[=]|[= ->]]. now elim Hne.
  - split; [discriminate|]. split; [intros s' [=]|reflexivity].
Qed.


Lemma mul_NaN_l (y : number) : Num.mul Num.NaN y = Num.NaN.
Proof. now destruct y. Qed.

(** X6. A read that resolves with no word at all is not a failure for the
    server: the value of the group is [NaN], and when the group is the
    energy the answer has status 200, a daily energy of [NaN] and the
    three costs ["NaN"], whatever the tariff. *)
Theorem empty_energy_answer
    (w : World C) (power volts : list Z) (c' : C) :
  reads_succeed (modbusClient w) power [] volts c' ->
  api_solar_data w
  = (Resolved
       {| status := 200;
          payload :=
            SolarBody
              {| activePower := Num.mul (ToNumber (index power 0)) (Num.of_Z 100);
                 dailyEnergy := Num.NaN;
                 voltage := Num.mul (ToNumber (index volts 0)) (Num.of_Z 10);
                 timestamp := clock w |}
              {| dailySavings := Str "NaN";
                 potentialRevenue := Str "NaN";
                 energyProduced := Str "NaN" |} |},
     with_io w c' register_reads []).
Proof.
  intros Hok. unfold api_solar_data, bind.
  rewrite (fetchSolarData_resolves _ _ _ _ _ Hok), calculateCosts_run.
  cbn [dailyEnergy index nth_error ToNumber].
  change (Num.mul Num.NaN (Num.of_Z 100)) with Num.NaN.
  change (Num.div Num.NaN (Num.of_Z 1000)) with Num.NaN.
  rewrite !mul_NaN_l. reflexivity.
Qed.


End Startup.

(** ** What the page shows *)

Module PageFacts.

Local Open Scope string_scope.

(** The digits of an integer below 2^53 are those of its Number. *)
Lemma Number_toString_of_Z (z : Z) :
  (0 <= z < 2 ^ 53)%Z ->
  Page.Number_toString (Num.of_Z z) = Str (Fixed.digits z).
Proof.
  intros [Hz Hlt]. destruct (Z.eq_dec z 0) as [->|Hne]; [reflexivity|].
  rewrite NumFacts.of_Z_normal by lia. unfold Page.Number_toString.
  rewrite (NumFacts.exact_Z_normal false) by lia.
  replace (z <? 2 ^ 53)%Z with true by (symmetry; apply Z.ltb_lt; lia).
  reflexivity.
Qed.

Lemma JSON_number_of_Z (z : Z) :
  (0 <= z < 2 ^ 53)%Z -> Page.JSON_number (Num.of_Z z) = Page.VNumber (Num.of_Z z).
Proof.
  intros [Hz Hlt]. destruct (Z.eq_dec z 0) as [->|Hne]; [reflexivity|].
  rewrite NumFacts.of_Z_normal by lia. reflexivity.
Qed.

(** A scaled register word on the page: its digits, no point, no exponent. *)
Lemma scaled_word_text (word scale : Z) (unit : string) :
  is_word word -> (0 <= scale <= 100)%Z ->
  Page.glue "" (Page.ToString (Page.JSON_number
                  (Num.mul (Num.of_Z word) (Num.of_Z scale)))) unit
  = Page.Plain (Fixed.digits (word * scale) ++ unit).
Proof.
  unfold is_word. intros Hw Hs.
  assert (Hbig : (2 ^ 53 = 9007199254740992)%Z) by reflexivity.
  assert (Hprod : (0 <= word * scale <= 6553500)%Z) by nia.
  rewrite NumFacts.mul_of_Z by lia.
  rewrite JSON_number_of_Z by lia. cbn [Page.ToString].
  rewrite Number_toString_of_Z by lia. reflexivity.
Qed.

End PageFacts.

Section PageProperties.

Context {C : Type} `{ModbusRTU C}.

Local Open Scope string_scope.

(** X8. When the sampling of a poll fails, the script writes the text
    "undefined W" into the power element, leaves the three other elements
    as they were, and prints one error on the console of the browser: the
    error body has no [activePower] and no [costs], and reading
    [data.costs.energyProduced] throws after the power was written. *)
Theorem failed_poll_shows_undefined_power
    (w : World C) (doc : Page.document) (k : nat) (err : error) (c' : C) :
  read_fails (modbusClient w) k err c' ->
  poll w doc
  = (with_io w c' (firstn (S k) register_reads)
             [ConsoleError "Error fetching data:" err],
     ({| Page.el_power := Page.Plain "undefined W";
         Page.el_energy := Page.el_energy doc;
         Page.el_savings := Page.el_savings doc;
         Page.el_voltage := Page.el_voltage doc |},
      [ConsoleError "Error:" "TypeError"])).
Proof.
  intros Hfail. unfold poll.
  now rewrite (api_solar_data_after_failure _ _ _ _ Hfail).
Qed.

(** X9. When the sampling of a poll succeeds on 16-bit words, the script
    writes all four elements and prints nothing: the power is the decimal
    digits of the first power word times 100 followed by " W", the voltage
    those of the first voltage word times 10 followed by " V", the energy
    the [toFixed(2)] string of the kWh followed by " kWh", and the savings
    the euro sign, a space and the [toFixed(2)] string of the savings. *)
Theorem successful_poll_shows_reading
    (w : World C) (doc : Page.document) (power energy volts : list Z)
    (c' : C) (rp re rv : Z) :
  reads_succeed (modbusClient w) power energy volts c' ->
  hd_error power = Some rp -> hd_error energy = Some re ->
  hd_error volts = Some rv ->
  is_word rp -> is_word re -> is_word rv ->
  let kwh := Num.div (Num.mul (Num.of_Z re) (Num.of_Z 100)) (Num.of_Z 1000) in
  poll w doc
  = (with_io w c' register_reads [],
     ({| Page.el_power := Page.Plain (Fixed.digits (rp * 100) ++ " W");
         Page.el_energy := Page.glue "" (Fixed.toFixed kwh 2) " kWh";
         Page.el_savings :=
           Page.glue "€ "
             (Fixed.toFixed (Num.mul kwh (purchase (ENERGY_COST w))) 2) "";
         Page.el_voltage := Page.Plain (Fixed.digits (rv * 10) ++ " V") |},
      [])).
Proof.
  intros Hok Hp He Hv Wp We Wv kwh. unfold poll, api_solar_data, bind.
  rewrite (fetchSolarData_resolves _ _ _ _ _ Hok), calculateCosts_run.
  unfold ret, Page.updateData.
  cbn [payload Page.data_costs Page.data_activePower Page.data_voltage
       activePower voltage dailyEnergy energyProduced dailySavings
       Page.el_power Page.el_energy Page.el_savings Page.el_voltage
       ENERGY_COST with_io].
  rewrite (index_0_hd _ _ Hp), (index_0_hd _ _ He), (index_0_hd _ _ Hv).
  rewrite !PageFacts.scaled_word_text by (auto; lia).
  reflexivity.
Qed.

End PageProperties.

(** ** The further properties on sample worlds *)

Module OnMoreSamples.

Import Scripted Samples MoreSamples.

Local Open Scope string_scope.

Lemma short_answer_reads :
  reads_succeed (modbusClient short_answer) [50; 0] [] [2305] (connected []).
Proof.
  exists (connected [Resolved []; Resolved [2305]]),
         (connected [Resolved [2305]]).
  repeat split.
Defined.

(** X6 on an inverter that answers the energy read with no word. *)
Lemma empty_energy_answer_short :
  api_solar_data short_answer
  = (Resolved
       {| status := 200;
          payload :=
            SolarBody
              {| activePower := Num.mul (ToNumber (index [50; 0] 0)) (Num.of_Z 100);
                 dailyEnergy := Num.NaN;
                 voltage := Num.mul (ToNumber (index [2305] 0)) (Num.of_Z 10);
                 timestamp := clock short_answer |}
              {| dailySavings := Str "NaN";
                 potentialRevenue := Str "NaN";
                 energyProduced := Str "NaN" |} |},
     with_io short_answer (connected []) register_reads []).
Proof.
  apply (empty_energy_answer short_answer [50; 0] [2305] (connected [])).
  exact short_answer_reads.
Defined.

(** X8 on the page as served, when the link is lost after the first read. *)
Lemma failed_poll_on_loading_page :
  poll link_lost_midway Page.loading
  = (with_io link_lost_midway (connected [])
             [ReqReadHoldingRegisters 32080 2; ReqReadHoldingRegisters 32106 2]
             [ConsoleError "Error fetching data:" "Timed out"],
     ({| Page.el_power := Page.Plain "undefined W";
         Page.el_energy := Page.Plain "Loading...";
         Page.el_savings := Page.Plain "Loading...";
         Page.el_voltage := Page.Plain "Loading..." |},
      [ConsoleError "Error:" "TypeError"])).
Proof.
  apply (failed_poll_shows_undefined_power
           link_lost_midway Page.loading 1 "Timed out" (connected [])).
  exact OnSamples.link_lost_midway_fails.
Defined.

(** X9 on the healthy inverter. *)
Lemma successful_poll_on_healthy :
  let kwh := Num.div (Num.mul (Num.of_Z 120) (Num.of_Z 100)) (Num.of_Z 1000) in
  poll healthy Page.loading
  = (with_io healthy (connected []) register_reads [],
     ({| Page.el_power := Page.Plain (Fixed.digits (50 * 100) ++ " W");
         Page.el_energy := Page.glue "" (Fixed.toFixed kwh 2) " kWh";
         Page.el_savings :=
           Page.glue "€ "
             (Fixed.toFixed (Num.mul kwh (purchase (ENERGY_COST healthy))) 2) "";
         Page.el_voltage := Page.Plain (Fixed.digits (2305 * 10) ++ " V") |},
      [])).
Proof.
  apply (successful_poll_shows_reading
           healthy Page.loading [50; 0] [120; 0] [2305] (connected []) 50 120 2305).
  - exact OnSamples.healthy_reads.
  - reflexivity.
  - reflexivity.
  - reflexivity.
  - unfold is_word; lia.
  - unfold is_word; lia.
  - unfold is_word; lia.
Defined.

(** What the page reads after that poll. *)
Example healthy_page :
  snd (poll healthy Page.loading)
  = ({| Page.el_power := Page.Plain "5000 W";
        Page.el_energy := Page.Plain "12.00 kWh";
        Page.el_savings := Page.Plain "€ 3.00";
        Page.el_voltage := Page.Plain "23050 V" |},
     []).
Proof. vm_compute. reflexivity. Qed.

(** The life of a server whose inverter accepts the connection, answers
    one sampling and then loses the link, over two requests. *)
Example configured_life :
  exists rs w',
    run 2 configured = (Resolved rs, w')
    /\ map status rs = [200; 500]
    /\ requests w'
       = [ReqConnectTCP "10.0.0.7" 502; ReqSetID 1;
          ReqReadHoldingRegisters 32080 2; ReqReadHoldingRegisters 32106 2;
          ReqReadHoldingRegisters 32066 1; ReqReadHoldingRegisters 32080 2]
    /\ List.length (console w') = 3%nat.
Proof. do 2 eexists. vm_compute. repeat split. Qed.

End OnMoreSamples.

Section EmptyPower.

Context {C : Type} `{ModbusRTU C}.

Local Open Scope string_scope.

(** X10. A power read that resolves with no word at all reaches the page
    as the text "null W": the active power is [NaN], which JSON carries as
    [null], and the answer has status 200 all the same. *)
Theorem empty_power_shows_null
    (w : World C) (doc : Page.document) (energy volts : list Z) (c' : C) :
  reads_succeed (modbusClient w) [] energy volts c' ->
  exists resp w' page lines,
    api_solar_data w = (Resolved resp, w')
    /\ status resp = 200
    /\ poll w doc = (w', (page, lines))
    /\ Page.el_power page = Page.Plain "null W"
    /\ lines = [].
Proof.
  intros Hok. unfold poll, api_solar_data, bind.
  rewrite (fetchSolarData_resolves _ _ _ _ _ Hok), calculateCosts_run.
  do 4 eexists. split; [reflexivity|]. split; [reflexivity|].
  split; [reflexivity|]. split; reflexivity.
Qed.

End EmptyPower.

Module OnEmptyPower.

Import Scripted.

Local Open Scope string_scope.

(** X10 on an inverter that answers the power read with no word. *)
Lemma empty_power_on_loading_page :
  exists resp w' page lines,
    api_solar_data MoreSamples.no_power = (Resolved resp, w')
    /\ status resp = 200
    /\ poll MoreSamples.no_power Page.loading = (w', (page, lines))
    /\ Page.el_power page = Page.Plain "null W"
    /\ lines = [].
Proof.
  apply (empty_power_shows_null MoreSamples.no_power Page.loading
           [120; 0] [2305] (connected [])).
  exists (connected [Resolved [120; 0]; Resolved [2305]]),
         (connected [Resolved [2305]]).
  repeat split.
Defined.

End OnEmptyPower.
